(** * QR code detector: detection, annotation and result formatting

    A shallow embedding of [qr_detector.py] and of [app.py].  NumPy arrays
    are heap objects: an image is passed by reference, [image.copy()]
    allocates, and the OpenCV drawing calls write into the array they are
    given.  OpenCV itself is not part of the repository; it is an interface
    ([OpenCV] below) that the embedded functions are parametric in. *)

From Stdlib Require Import Ascii DecimalString DecimalPos DecimalZ QArith.
From stdpp Require Import gmap strings list fin_maps.

Open Scope Z_scope.

(** ** Values *)

(** A [uint8] image array, indexed row, column, channel. *)
Definition ndarray : Type := list (list (list Z)).

(** A single-channel image, indexed row, column. *)
Definition gray : Type := list (list Z).

(** References to image arrays living on the heap. *)
Definition loc : Type := positive.

(** An integer pixel position [(x, y)]. *)
Definition ipoint : Type := (Z * Z)%type.

Definition color : Type := (Z * Z * Z)%type.

Inductive font := FONT_HERSHEY_SIMPLEX.
Inductive line_type := LINE_8 | LINE_AA.

(** Python exceptions that the embedded code can let escape.
    [InvalidReference] is the model's own: a reference that is not in the
    heap names no Python object. *)
Inductive exn :=
| IndexError
| ValueError
| TypeError
| cv2_error
| InvalidReference.

Inductive result (A : Type) :=
| Ok (a : A)
| Raise (e : exn).
Arguments Ok {A} a.
Arguments Raise {A} e.

(** The drawing calls made on OpenCV, with the arguments the source passes. *)
Inductive cv2_call :=
| Polylines (img : loc) (pts : list (list ipoint)) (isClosed : bool)
            (col : color) (thickness : Z)
| PutText (img : loc) (text : string) (org : ipoint) (fontFace : font)
          (fontScale : Q) (col : color) (thickness : Z) (lineType : line_type).

Definition target (c : cv2_call) : loc :=
  match c with
  | Polylines img _ _ _ _ => img
  | PutText img _ _ _ _ _ _ _ => img
  end.

(** ** The libraries the code calls *)

(** [float32] is the element type of the corner arrays the detector
    returns and [astype_int] is NumPy's [astype(int)] on one element.

    [detectAndDecodeMulti n a] is what the [n]-th detector call of the
    process answers on the pixels [a], unless it raises: the four values
    [retval, decoded_info, points, straight_qrcode] of OpenCV's Python
    binding, where [points] is [None] when nothing was located.  The
    answers to two calls on the same pixels need not agree; the order of
    the located codes, for one, can differ.

    [rasterise] is what a drawing call does to the pixels of its target
    array, when OpenCV accepts the call. *)
Class OpenCV := {
  float32 : Type;
  astype_int : float32 → Z;
  detectAndDecodeMulti :
    nat → ndarray →
    result (bool * list string * option (list (list (float32 * float32)))
            * list gray);
  rasterise : cv2_call → ndarray → result ndarray
}.

(** ** The world: a heap of arrays, the log of drawing calls and the
    number of detector calls made so far *)

Record world := World {
  heap : gmap loc ndarray;
  drawn : list cv2_call;
  detections : nat
}.

Definition M (A : Type) : Type := world → result A * world.

Global Instance M_ret : MRet M := λ A a w, (Ok a, w).

Global Instance M_bind : MBind M := λ A B k m w,
  match m w with
  | (Ok a, w') => k a w'
  | (Raise e, w') => (Raise e, w')
  end.

Definition raise {A} (e : exn) : M A := λ w, (Raise e, w).

(** The outcome of a call that does not touch the world. *)
Definition lift {A} (r : result A) : M A := λ w, (r, w).

(** Run a loop body over the items of a sequence, in order; an exception
    ends the loop. *)
Fixpoint for_each {A} (l : list A) (body : A → M unit) : M unit :=
  match l with
  | [] => mret tt
  | x :: l' => body x ;; for_each l' body
  end.

(** Python's [enumerate(l, start)]. *)
Fixpoint enumerate {A} (start : Z) (l : list A) : list (Z * A) :=
  match l with
  | [] => []
  | x :: l' => (start, x) :: enumerate (start + 1) l'
  end.

(** [str(n)] for a Python [int]. *)
Definition str_int (n : Z) : string := NilZero.string_of_int (Z.to_int n).

(** Truth value of a Python [str]: non-empty. *)
Definition truthy (s : string) : bool :=
  match s with
  | EmptyString => false
  | String _ _ => true
  end.

Section QRDetector.
Context `{cv : OpenCV}.

(** A corner array of one code: rows of [(x, y)]. *)
Definition box : Type := list (float32 * float32).

(** [QRCodeResult], a frozen dataclass. *)
Record QRCodeResult := mkQRCodeResult {
  data : string;
  points : box
}.

(** [b.astype(int)] on a corner array. *)
Definition ndarray_astype_int (b : box) : list ipoint :=
  map (λ '(x, y), (astype_int x, astype_int y)) b.

(** *** Python objects in the detector's answer

    The answer is a tuple; what the source does with it depends on how many
    values it holds and on what they are, so the values are carried as
    objects until the source has taken the tuple apart. *)

Inductive pyobj :=
| PyNone
| PyBool (b : bool)
| PyTexts (l : list string)
| PyCorners (l : list box)
| PyImages (l : list gray).

(** [a, b, c = t]: a tuple of any other length raises [ValueError]. *)
Definition unpack3 (t : list pyobj) : result (pyobj * pyobj * pyobj) :=
  match t with
  | [a; b; c] => Ok (a, b, c)
  | _ => Raise ValueError
  end.

(** [x is None]. *)
Definition is_none (x : pyobj) : bool :=
  match x with
  | PyNone => true
  | _ => false
  end.

(** [len(x)]: [None] and a [bool] have no length. *)
Definition len (x : pyobj) : result Z :=
  match x with
  | PyNone | PyBool _ => Raise TypeError
  | PyTexts l => Ok (Z.of_nat (length l))
  | PyCorners l => Ok (Z.of_nat (length l))
  | PyImages l => Ok (Z.of_nat (length l))
  end.

(** [zip(x, y)] for texts and corner arrays, the types the source declares
    for [decoded_texts] and [points]; the loop of the source is not carried
    on for objects of other types, which are reported as [TypeError]. *)
Definition zip_texts_corners (x y : pyobj) : result (list (string * box)) :=
  match x, y with
  | PyTexts texts, PyCorners corners => Ok (zip texts corners)
  | _, _ => Raise TypeError
  end.

(** *** Heap operations *)

Definition read (l : loc) : M ndarray :=
  λ w, match heap w !! l with
       | Some a => (Ok a, w)
       | None => (Raise InvalidReference, w)
       end.

Definition alloc (a : ndarray) : M loc :=
  λ w, let l := fresh (dom (heap w)) in
       (Ok l, World (<[l := a]> (heap w)) (drawn w) (detections w)).

Definition write (l : loc) (a : ndarray) : M unit :=
  λ w, (Ok tt, World (<[l := a]> (heap w)) (drawn w) (detections w)).

Definition log (c : cv2_call) : M unit :=
  λ w, (Ok tt, World (heap w) (drawn w ++ [c]) (detections w)).

(** The number of this detector call; the next call gets the next number. *)
Definition tick : M nat :=
  λ w, (Ok (detections w), World (heap w) (drawn w) (S (detections w))).

(** [a.copy()]: a new array with the pixels of [a]. *)
Definition ndarray_copy (l : loc) : M loc :=
  a ← read l;
  alloc a.

(** A drawing call that OpenCV accepts writes into its target array and is
    logged. *)
Definition draw (c : cv2_call) : M unit :=
  a ← read (target c);
  a' ← lift (rasterise c a);
  write (target c) a';;
  log c.

Definition cv2_polylines (img : loc) (pts : list (list ipoint)) (isClosed : bool)
    (col : color) (thickness : Z) : M unit :=
  draw (Polylines img pts isClosed col thickness).

Definition cv2_putText (img : loc) (text : string) (org : ipoint) (fontFace : font)
    (fontScale : Q) (col : color) (thickness : Z) (lineType : line_type) : M unit :=
  draw (PutText img text org fontFace fontScale col thickness lineType).

(** The detector reads the image and does not write to it; it returns a
    tuple of four values. *)
Definition cv2_detectAndDecodeMulti (image : loc) : M (list pyobj) :=
  a ← read image;
  n ← tick;
  '(retval, decoded_info, points, straight_qrcode) ←
    lift (detectAndDecodeMulti n a);
  mret [PyBool retval; PyTexts decoded_info;
        from_option PyCorners PyNone points; PyImages straight_qrcode].

(** *** qr_detector.py *)

(** The body of the loop of [detect_qr_codes]. *)
Definition keep (results : list QRCodeResult) (p : string * box)
  : list QRCodeResult :=
  let '(text, box) := p in
  if truthy text then results ++ [mkQRCodeResult text box] else results.

(** Every call builds its own [cv2.QRCodeDetector()]. *)
Definition detect_qr_codes (image : loc) : M (list QRCodeResult) :=
  answer ← cv2_detectAndDecodeMulti image;
  '(decoded_texts, points, _) ← lift (unpack3 answer);
  if is_none points then mret []
  else
    n ← lift (len decoded_texts);
    if n =? 0 then mret []
    else
      pairs ← lift (zip_texts_corners decoded_texts points);
      mret (fold_left keep pairs []).

Definition draw_qr_boxes (image : loc) (results : list QRCodeResult) : M loc :=
  output ← ndarray_copy image;
  for_each (enumerate 1 results) (λ '(idx, result),
    let pts := ndarray_astype_int (points result) in
    cv2_polylines output [pts] true (0, 255, 0) 2 ;;
    let label := str_int idx +:+ ": " +:+ data result in
    text_origin ← match pts with
                   | p :: _ => mret p
                   | [] => raise IndexError
                   end;
    cv2_putText output label text_origin FONT_HERSHEY_SIMPLEX (1 # 2)
                (255, 0, 0) 1 LINE_AA) ;;
  mret output.

Definition count_qr_codes (results : list QRCodeResult) : Z :=
  Z.of_nat (length results).

(** *** app.py *)

Definition format_results (results : list QRCodeResult) : list string :=
  map (λ '(idx, result), str_int idx +:+ ". " +:+ data result)
      (enumerate 1 results).

End QRDetector.

(** ** Notions used in the statements *)

(** What was drawn: closed polygons and text labels. *)
Definition closed_polygons (calls : list cv2_call) : nat :=
  sum_list (map (λ c, match c with
                      | Polylines _ pts true _ _ => length pts
                      | _ => 0%nat
                      end) calls).

Definition labels (calls : list cv2_call) : nat :=
  sum_list (map (λ c, match c with
                      | PutText _ _ _ _ _ _ _ _ => 1%nat
                      | _ => 0%nat
                      end) calls).

(** [w'] differs from [w] only in the pixels of [l] and in drawing calls on
    [l] added to the log. *)
Definition writes_only (l : loc) (w w' : world) : Prop :=
  (∀ l', l' ≠ l → heap w' !! l' = heap w !! l') ∧
  ∃ calls, drawn w' = drawn w ++ calls ∧ Forall (λ c, target c = l) calls.

(** The reference the next allocation returns. *)
Definition next_ref (w : world) : loc := fresh (dom (heap w)).

Section Notions.
Context `{cv : OpenCV}.

(** The body of the loop of [draw_qr_boxes]. *)
Definition mark (output : loc) (item : Z * QRCodeResult) : M unit :=
  let '(idx, result) := item in
  let pts := ndarray_astype_int (points result) in
  cv2_polylines output [pts] true (0, 255, 0) 2;;
  let label := str_int idx +:+ ": " +:+ data result in
  text_origin ← match pts with
                | p :: _ => mret p
                | [] => raise IndexError
                end;
  cv2_putText output label text_origin FONT_HERSHEY_SIMPLEX (1 # 2)
              (255, 0, 0) 1 LINE_AA.

(** The two calls one pass of the loop makes for an item with corners. *)
Definition calls_of (output : loc) (item : Z * QRCodeResult) : list cv2_call :=
  let pts := ndarray_astype_int (points item.2) in
  [Polylines output [pts] true (0, 255, 0) 2;
   PutText output (str_int item.1 +:+ ": " +:+ data item.2)
           (default (0, 0) (head pts)) FONT_HERSHEY_SIMPLEX (1 # 2)
           (255, 0, 0) 1 LINE_AA].

(** The calls that annotate [results] on the array [output]. *)
Definition annotation_calls (output : loc) (results : list QRCodeResult)
  : list cv2_call :=
  flat_map (calls_of output) (enumerate 1 results).

(** The pixels an array holds after a sequence of drawing calls, the first
    call applied first; the first call OpenCV rejects ends it. *)
Definition rasterise_all (calls : list cv2_call) (a : ndarray) : result ndarray :=
  fold_left (λ r c, match r with
                    | Ok a => rasterise c a
                    | Raise e => Raise e
                    end) calls (Ok a).

(** OpenCV accepts the calls, made one after the other on an array that
    starts with the pixels [a]. *)
Definition accepts (calls : list cv2_call) (a : ndarray) : Prop :=
  ∃ final, rasterise_all calls a = Ok final.

End Notions.

(** The characters of a decimal numeral. *)
Definition digit_chars : list ascii :=
  ["0"; "1"; "2"; "3"; "4"; "5"; "6"; "7"; "8"; "9"]%char.

Fixpoint all_digits (s : string) : Prop :=
  match s with
  | EmptyString => True
  | String c s' => c ∈ digit_chars ∧ all_digits s'
  end.

(** ** The Streamlit page of app.py

    Pillow, NumPy's array constructor and OpenCV's colour conversion are
    interfaces, like the detector.  [None] from a Pillow call stands for an
    exception raised by Pillow.  Streamlit calls are taken to succeed; the
    page is the list of the calls made, each with the container it was made
    in. *)

Inductive conversion := COLOR_RGB2BGR | COLOR_BGR2RGB.

Class Imaging := {
  UploadedFile : Type;
  PIL_Image : Type;
  Image_open : UploadedFile → option PIL_Image;
  Image_convert : PIL_Image → string → option PIL_Image;
  np_array : PIL_Image → ndarray;
  cvtColor : ndarray → conversion → result ndarray
}.

Inductive app_exn :=
| Lib (e : exn)
| PIL_error.

Inductive outcome (A : Type) :=
| Done (a : A)
| Failed (e : app_exn).
Arguments Done {A} a.
Arguments Failed {A} e.

(** Where a Streamlit call lands: the page itself or a column of it. *)
Inductive place := Page | Column (i : nat).

Section App.
Context `{cv : OpenCV} `{im : Imaging}.

Inductive widget :=
| st_set_page_config (page_title layout : string)
| st_title (body : string)
| st_write (body : string)
| st_file_uploader (label : string) (type : list string)
| st_info (body : string)
| st_columns (spec : Z)
| st_subheader (body : string)
| st_image (image : PIL_Image) (use_column_width : bool)
| st_image_array (image : ndarray) (use_column_width : bool)
| st_metric (label : string) (value : Z)
| st_write_list (body : list string)
| st_warning (body : string).

(** One run of the script: the arrays, the page built so far and what the
    user has put in the uploader. *)
Record session := Session {
  mem : world;
  page : list (place * widget);
  uploaded : option UploadedFile
}.

Definition App (A : Type) : Type := session → outcome A * session.

Global Instance App_ret : MRet App := λ A a s, (Done a, s).

Global Instance App_bind : MBind App := λ A B k m s,
  match m s with
  | (Done a, s') => k a s'
  | (Failed e, s') => (Failed e, s')
  end.

(** A computation on the arrays, run inside the session. *)
Definition core {A} (m : M A) : App A :=
  λ s, let '(r, w) := m (mem s) in
       (match r with Ok a => Done a | Raise e => Failed (Lib e) end,
        Session w (page s) (uploaded s)).

Definition pil {A} (r : option A) : App A :=
  λ s, (match r with Some a => Done a | None => Failed PIL_error end, s).

Definition st (p : place) (wd : widget) : App unit :=
  λ s, (Done tt, Session (mem s) (page s ++ [(p, wd)]) (uploaded s)).

(** [st.file_uploader] shows the widget and returns what it holds. *)
Definition file_uploader (label : string) (type : list string)
  : App (option UploadedFile) :=
  λ s, (Done (uploaded s),
        Session (mem s) (page s ++ [(Page, st_file_uploader label type)])
                (uploaded s)).

(** [cv2.cvtColor] returns a new array. *)
Definition cv2_cvtColor (src : loc) (code : conversion) : M loc :=
  a ← read src;
  a' ← lift (cvtColor a code);
  alloc a'.

(** [st.image] of an array shows the pixels the array holds at the call. *)
Definition show_array (p : place) (l : loc) (use_column_width : bool) : App unit :=
  a ← core (read l);
  st p (st_image_array a use_column_width).

Definition load_image (image_file : PIL_Image) : App loc :=
  rgb ← pil (Image_convert image_file "RGB");
  rgb_image ← core (alloc (np_array rgb));
  core (cv2_cvtColor rgb_image COLOR_RGB2BGR).

Definition main : App unit :=
  st Page (st_set_page_config "QR Code Detector" "wide");;
  st Page (st_title "CPU QR Code Detector");;
  st Page (st_write "Upload an image with multiple QR codes. The app will count and decode them using OpenCV's QRCodeDetector (CPU-friendly).");;
  uploaded_file ← file_uploader "Upload an image" ["png"; "jpg"; "jpeg"];
  match uploaded_file with
  | None => st Page (st_info "Please upload an image to begin.")
  | Some uploaded_file =>
      image ← pil (Image_open uploaded_file);
      bgr_image ← load_image image;
      results ← core (detect_qr_codes bgr_image);
      st Page (st_columns 2);;
      st (Column 1) (st_subheader "Original");;
      st (Column 1) (st_image image true);;
      st (Column 2) (st_subheader "Detected");;
      annotated ← core (draw_qr_boxes bgr_image results);
      rgb_annotated ← core (cv2_cvtColor annotated COLOR_BGR2RGB);
      show_array (Column 2) rgb_annotated true;;
      st Page (st_metric "QR Codes Found" (count_qr_codes results));;
      match results with
      | _ :: _ =>
          st Page (st_subheader "Decoded Data");;
          st Page (st_write_list (format_results results))
      | [] => st Page (st_warning "No QR codes detected. Try a clearer image.")
      end
  end.

(** [main] from the first statement after the early return. *)
Definition after_upload (uploaded_file : UploadedFile) : App unit :=
  image ← pil (Image_open uploaded_file);
  bgr_image ← load_image image;
  results ← core (detect_qr_codes bgr_image);
  st Page (st_columns 2);;
  st (Column 1) (st_subheader "Original");;
  st (Column 1) (st_image image true);;
  st (Column 2) (st_subheader "Detected");;
  annotated ← core (draw_qr_boxes bgr_image results);
  rgb_annotated ← core (cv2_cvtColor annotated COLOR_BGR2RGB);
  show_array (Column 2) rgb_annotated true;;
  st Page (st_metric "QR Codes Found" (count_qr_codes results));;
  match results with
  | _ :: _ =>
      st Page (st_subheader "Decoded Data");;
      st Page (st_write_list (format_results results))
  | [] => st Page (st_warning "No QR codes detected. Try a clearer image.")
  end.

(** What [main] puts on the page before it looks at the upload. *)
Definition header : list (place * widget) :=
  [(Page, st_set_page_config "QR Code Detector" "wide");
   (Page, st_title "CPU QR Code Detector");
   (Page, st_write "Upload an image with multiple QR codes. The app will count and decode them using OpenCV's QRCodeDetector (CPU-friendly).");
   (Page, st_file_uploader "Upload an image" ["png"; "jpg"; "jpeg"])].

End App.

(** ** A concrete OpenCV, for running the embedding

    Corner coordinates are rationals truncated towards zero.  The detector
    answers from the first pixel: a white image has no code, a black one
    three located codes of which the middle one could not be decoded, in an
    order that depends on the call; an empty array is rejected.  A drawing
    call paints every pixel in its colour; a label whose origin lies 1000
    pixels or more from an axis is rejected. *)
Module Bench.

Definition trunc (q : Q) : Z := Z.quot (Qnum q) (Z.pos (Qden q)).

Definition quad (x y : Z) : list (Q * Q) :=
  [(x # 2, y # 2); ((x + 80) # 2, y # 2);
   ((x + 80) # 2, (y + 80) # 2); (x # 2, (y + 80) # 2)].

Definition module : gray := [[0; 255]; [255; 0]].

Definition detector (n : nat) (a : ndarray)
  : result (bool * list string * option (list (list (Q * Q))) * list gray) :=
  match a with
  | [] => Raise cv2_error
  | ([0; 0; 0] :: _) :: _ =>
      if Nat.even n
      then Ok (true, ["A"; ""; "C"],
               Some [quad 21 21; quad 201 21; quad 21 201],
               [module; module; module])
      else Ok (true, ["C"; ""; "A"],
               Some [quad 21 201; quad 201 21; quad 21 21],
               [module; module; module])
  | _ => Ok (false, [], None, [])
  end.

Definition call_color (c : cv2_call) : color :=
  match c with
  | Polylines _ _ _ col _ => col
  | PutText _ _ _ _ _ col _ _ => col
  end.

Definition fits (p : ipoint) : bool :=
  (Z.abs p.1 <? 1000) && (Z.abs p.2 <? 1000).

Definition paint (c : cv2_call) (a : ndarray) : result ndarray :=
  match c with
  | PutText _ _ org _ _ _ _ _ =>
      if fits org
      then Ok (map (map (λ _, let '(b, g, r) := call_color c in [b; g; r])) a)
      else Raise cv2_error
  | Polylines _ _ _ _ _ =>
      Ok (map (map (λ _, let '(b, g, r) := call_color c in [b; g; r])) a)
  end.

Definition cv : OpenCV :=
  {| float32 := Q; astype_int := trunc;
     detectAndDecodeMulti := detector; rasterise := paint |}.

Definition white : ndarray := [[[255; 255; 255]; [255; 255; 255]]].
Definition black : ndarray := [[[0; 0; 0]; [0; 0; 0]]].

Definition world_of (a : ndarray) : world := World {[ 1%positive := a ]} [] 0.

Definition two_results : list (@QRCodeResult cv) :=
  [@mkQRCodeResult cv "A" (quad 21 21); @mkQRCodeResult cv "C" (quad 21 201)].

(** A code whose first corner lies too far out for a label. *)
Definition far : @QRCodeResult cv :=
  @mkQRCodeResult cv "F" [(4000 # 1, 0 # 1); (0 # 1, 0 # 1)].

End Bench.

(** A Pillow that opens a file of bytes as a one-row image whose pixels all
    repeat the first three bytes, refuses the empty file and converts to
    [RGB] only; the colour conversion swaps the outer channels. *)
Module Studio.

Definition open (f : list Z) : option ndarray :=
  match f with
  | r :: g :: b :: _ => Some [[[r; g; b]; [r; g; b]]]
  | _ => None
  end.

Definition convert (img : ndarray) (mode : string) : option ndarray :=
  if decide (mode = "RGB") then Some img else None.

Definition swap (a : ndarray) (code : conversion) : result ndarray :=
  Ok (map (map (λ px, match px with
                      | [c0; c1; c2] => [c2; c1; c0]
                      | _ => px
                      end)) a).

Definition im : Imaging :=
  {| UploadedFile := list Z; PIL_Image := ndarray;
     Image_open := open; Image_convert := convert;
     np_array := λ img, img; cvtColor := swap |}.

Definition start (f : option (list Z)) : @session im :=
  @Session im (World ∅ [] 0) [] f.

End Studio.

(** ** Running the monad *)

Lemma bind_Ok {A B} (m : M A) (k : A → M B) w a w' :
  m w = (Ok a, w') → (m ≫= k) w = k a w'.
Proof. intros E. unfold mbind, M_bind. by rewrite E. Qed.

Lemma bind_Raise {A B} (m : M A) (k : A → M B) w e w' :
  m w = (Raise e, w') → (m ≫= k) w = (Raise e, w').
Proof. intros E. unfold mbind, M_bind. by rewrite E. Qed.

Lemma read_Some l w a : heap w !! l = Some a → read l w = (Ok a, w).
Proof. intros E. unfold read. by rewrite E. Qed.

Lemma read_None l w : heap w !! l = None → read l w = (Raise InvalidReference, w).
Proof. intros E. unfold read. by rewrite E. Qed.

Lemma enumerate_lookup {A} (l : list A) start (i : nat) :
  enumerate start l !! i = (λ x, (start + Z.of_nat i, x)) <$> l !! i.
Proof.
  revert start i. induction l as [|x l IH]; intros start [|i]; simpl; try done.
  - by rewrite Z.add_0_r.
  - rewrite IH. destruct (l !! i); simpl; [|done].
    do 2 f_equal. lia.
Qed.

Lemma enumerate_length {A} (l : list A) start :
  length (enumerate start l) = length l.
Proof. revert start. induction l; intros; simpl; auto. Qed.

Lemma enumerate_app {A} (l1 l2 : list A) start :
  enumerate start (l1 ++ l2) =
  enumerate start l1 ++ enumerate (start + Z.of_nat (length l1)) l2.
Proof.
  revert start. induction l1 as [|x l1 IH]; intros start; simpl.
  - by rewrite Z.add_0_r.
  - rewrite IH. do 3 f_equal. lia.
Qed.

Lemma for_each_app {A} (l1 l2 : list A) (body : A → M unit) w :
  for_each (l1 ++ l2) body w =
  (for_each l1 body ;; for_each l2 body) w.
Proof.
  revert w. induction l1 as [|x l1 IH]; intros w; simpl; [done|].
  unfold mbind, M_bind in *. destruct (body x w) as [[[]|e] w1]; [|done].
  apply IH.
Qed.

(** ** Detection *)

Section Detection.
Context `{cv : OpenCV}.

Lemma truthy_spec s : truthy s = true ↔ s ≠ "".
Proof. destruct s; simpl; split; congruence. Qed.

(** The loop of lines 37 to 42, had it been reached: it keeps the pairs
    with a non-empty text, in order. *)
Lemma fold_keep_filter pairs acc :
  fold_left keep pairs acc =
  acc ++ map (λ p, mkQRCodeResult p.1 p.2) (filter (λ p, p.1 ≠ "") pairs).
Proof.
  revert acc. induction pairs as [|[text b] pairs IH]; intros acc; simpl.
  - by rewrite app_nil_r.
  - rewrite IH, filter_cons. simpl.
    destruct text as [|c s]; simpl; [done|].
    by rewrite <- app_assoc.
Qed.

(** A tuple of four values does not unpack into three targets. *)
Lemma unpack3_four (a b c d : pyobj) : unpack3 [a; b; c; d] = Raise ValueError.
Proof. reflexivity. Qed.

(** What a call of [detect_qr_codes] comes to: the detector's own error
    when it raises, and [ValueError] from the unpacking whenever it
    answers. *)
Lemma detect_qr_codes_outcome image w :
  detect_qr_codes image w =
  match heap w !! image with
  | None => (Raise InvalidReference, w)
  | Some a =>
      (match detectAndDecodeMulti (detections w) a with
       | Ok _ => Raise ValueError
       | Raise e => Raise e
       end,
       World (heap w) (drawn w) (S (detections w)))
  end.
Proof.
  unfold detect_qr_codes, cv2_detectAndDecodeMulti, mbind, M_bind, read,
    tick, lift.
  destruct (heap w !! image) as [a|]; [|done]. simpl.
  by destruct (detectAndDecodeMulti (detections w) a)
    as [[[[retval texts] pts] straight]|e].
Qed.

Lemma detect_qr_codes_answered image w a ans :
  heap w !! image = Some a →
  detectAndDecodeMulti (detections w) a = Ok ans →
  detect_qr_codes image w =
  (Raise ValueError, World (heap w) (drawn w) (S (detections w))).
Proof. intros Ha Hd. by rewrite detect_qr_codes_outcome, Ha, Hd. Qed.



(** C2: when the detector answers that it located nothing (no corner
    array, no decoded text or an empty corner array), [detect_qr_codes]
    does not return the empty list: it raises [ValueError]. *)
Theorem detect_qr_codes_nothing_found_raises
    image w a retval decoded_texts pts straight_qrcode :
  heap w !! image = Some a →
  detectAndDecodeMulti (detections w) a
  = Ok (retval, decoded_texts, pts, straight_qrcode) →
  decoded_texts = [] ∨ pts = None ∨ pts = Some [] →
  detect_qr_codes image w =
  (Raise ValueError, World (heap w) (drawn w) (S (detections w))).
Proof. intros Ha Hd _. apply (detect_qr_codes_answered _ _ _ _ Ha Hd). Qed.

(** C5: whatever texts and corner arrays the detector answers with, and in
    whatever order, [detect_qr_codes] returns none of them: it raises
    [ValueError], having changed nothing but the count of detector
    calls. *)
Theorem detect_qr_codes_unpack_raises
    image w a retval decoded_texts pts straight_qrcode :
  heap w !! image = Some a →
  detectAndDecodeMulti (detections w) a
  = Ok (retval, decoded_texts, pts, straight_qrcode) →
  detect_qr_codes image w =
  (Raise ValueError, World (heap w) (drawn w) (S (detections w))).
Proof. intros Ha Hd. apply (detect_qr_codes_answered _ _ _ _ Ha Hd). Qed.



End Detection.

Section DetectionRuns.
Import Bench.
#[local] Existing Instance Bench.cv.

(** A blank image: the detector answers [(False, (), None, ())]. *)
Example detect_white :
  detect_qr_codes 1%positive (world_of white) =
  (Raise ValueError, World {[ 1%positive := white ]} [] 1).
Proof. vm_compute. reflexivity. Qed.

Example detect_black :
  (detect_qr_codes 1%positive (world_of black)).1 = Raise ValueError.
Proof. vm_compute. reflexivity. Qed.

Example detect_empty_array :
  (detect_qr_codes 1%positive (world_of [])).1 = Raise cv2_error.
Proof. reflexivity. Qed.


Lemma detect_qr_codes_nothing_found_raises_witness :
  detect_qr_codes 1%positive (world_of white) =
  (Raise ValueError, World (heap (world_of white)) (drawn (world_of white)) 1).
Proof.
  apply (detect_qr_codes_nothing_found_raises (cv := Bench.cv) 1%positive
           (world_of white) white false [] None []).
  - reflexivity.
  - reflexivity.
  - left. reflexivity.
Defined.

Lemma detect_qr_codes_unpack_raises_witness :
  detect_qr_codes 1%positive (world_of black) =
  (Raise ValueError, World (heap (world_of black)) (drawn (world_of black)) 1).
Proof.
  apply (detect_qr_codes_unpack_raises (cv := Bench.cv) 1%positive
           (world_of black) black true ["A"; ""; "C"]
           (Some [quad 21 21; quad 201 21; quad 21 201])
           [module; module; module]).
  - reflexivity.
  - reflexivity.
Defined.



End DetectionRuns.

(** ** Annotation *)

Lemma writes_only_refl l w : writes_only l w w.
Proof. split; [done|]. exists []. by rewrite app_nil_r. Qed.

Lemma writes_only_trans l w1 w2 w3 :
  writes_only l w1 w2 → writes_only l w2 w3 → writes_only l w1 w3.
Proof.
  intros [H1 (c1 & E1 & F1)] [H2 (c2 & E2 & F2)]. split.
  - intros l' N. by rewrite H2, H1.
  - exists (c1 ++ c2). rewrite E2, E1, app_assoc. split; [done|].
    by apply Forall_app.
Qed.

Lemma bind_writes_only {A B} l (m : M A) (k : A → M B) w :
  writes_only l w (m w).2 →
  (∀ a w1, writes_only l w1 (k a w1).2) →
  writes_only l w ((m ≫= k) w).2.
Proof.
  intros Hm Hk. unfold mbind, M_bind.
  destruct (m w) as [[a|e] w1]; simpl in *; [|done].
  eapply writes_only_trans; [exact Hm|apply Hk].
Qed.

Lemma for_each_writes_only {A} l (body : A → M unit) items :
  (∀ x w, writes_only l w (body x w).2) →
  ∀ w, writes_only l w (for_each items body w).2.
Proof.
  intros Hbody. induction items as [|x items IH]; intros w; simpl.
  - apply writes_only_refl.
  - apply bind_writes_only; [apply Hbody|]. intros _ w1. apply IH.
Qed.

Section Annotation.
Context `{cv : OpenCV}.

Lemma draw_qr_boxes_unfold image results :
  draw_qr_boxes image results =
  (output ← ndarray_copy image;
   for_each (enumerate 1 results) (mark output);;
   mret output).
Proof. reflexivity. Qed.

Lemma draw_writes_only c w : writes_only (target c) w (draw c w).2.
Proof.
  unfold draw, mbind, M_bind, read, lift, write, log.
  destruct (heap w !! target c) as [a|]; [|apply writes_only_refl].
  destruct (rasterise c a) as [a'|]; [|apply writes_only_refl].
  simpl. split.
  - intros l' N. simpl. by rewrite lookup_insert_ne.
  - exists [c]. simpl. split; [done|]. by constructor.
Qed.

Lemma mark_writes_only output item w :
  writes_only output w (mark output item w).2.
Proof.
  destruct item as [idx r]. unfold mark.
  apply bind_writes_only; [apply (draw_writes_only (Polylines _ _ _ _ _))|].
  intros _ w1. apply bind_writes_only.
  - destruct (ndarray_astype_int _); apply writes_only_refl.
  - intros p w2. apply (draw_writes_only (PutText _ _ _ _ _ _ _ _)).
Qed.

Lemma ndarray_copy_run image w a :
  heap w !! image = Some a →
  let output := fresh (dom (heap w)) in
  heap w !! output = None ∧
  ndarray_copy image w =
  (Ok output, World (<[output := a]> (heap w)) (drawn w) (detections w)).
Proof.
  intros Ha output. split.
  - apply not_elem_of_dom, is_fresh.
  - unfold ndarray_copy. by rewrite (bind_Ok _ _ _ _ _ (read_Some _ _ _ Ha)).
Qed.

Lemma draw_run c w a a' :
  heap w !! target c = Some a →
  rasterise c a = Ok a' →
  draw c w =
  (Ok tt, World (<[target c := a']> (heap w)) (drawn w ++ [c]) (detections w)).
Proof.
  intros Ha Hr. unfold draw.
  rewrite (bind_Ok _ _ _ _ _ (read_Some _ _ _ Ha)).
  unfold mbind, M_bind, lift. by rewrite Hr.
Qed.

Lemma draw_rejected c w a e :
  heap w !! target c = Some a →
  rasterise c a = Raise e →
  draw c w = (Raise e, w).
Proof.
  intros Ha Hr. unfold draw.
  rewrite (bind_Ok _ _ _ _ _ (read_Some _ _ _ Ha)).
  unfold mbind, M_bind, lift. by rewrite Hr.
Qed.

Lemma rasterise_all_Raise calls e :
  fold_left (λ r c, match r with
                    | Ok a => rasterise c a
                    | Raise e => Raise e
                    end) calls (Raise e) = Raise e.
Proof. induction calls; simpl; auto. Qed.

Lemma rasterise_all_cons c calls a :
  rasterise_all (c :: calls) a =
  match rasterise c a with
  | Ok a1 => rasterise_all calls a1
  | Raise e => Raise e
  end.
Proof.
  unfold rasterise_all. simpl.
  destruct (rasterise c a); [done|apply rasterise_all_Raise].
Qed.

Lemma rasterise_all_app calls1 calls2 a a1 :
  rasterise_all calls1 a = Ok a1 →
  rasterise_all (calls1 ++ calls2) a = rasterise_all calls2 a1.
Proof.
  unfold rasterise_all. intros E. by rewrite fold_left_app, E.
Qed.

Lemma rasterise_all_app_inv calls1 calls2 a final :
  rasterise_all (calls1 ++ calls2) a = Ok final →
  ∃ a1, rasterise_all calls1 a = Ok a1 ∧ rasterise_all calls2 a1 = Ok final.
Proof.
  unfold rasterise_all. rewrite fold_left_app.
  destruct (fold_left _ calls1 (Ok a)) as [a1|e]; [eauto|].
  by rewrite rasterise_all_Raise.
Qed.

(** One pass of the loop, case by case. *)
Lemma mark_cases output item w a :
  heap w !! output = Some a →
  mark output item w =
  let pts := ndarray_astype_int (points item.2) in
  let c1 := Polylines output [pts] true (0, 255, 0) 2 in
  match rasterise c1 a with
  | Raise e => (Raise e, w)
  | Ok a1 =>
      let w1 := World (<[output := a1]> (heap w)) (drawn w ++ [c1])
                      (detections w) in
      match pts with
      | [] => (Raise IndexError, w1)
      | p :: _ =>
          let c2 := PutText output (str_int item.1 +:+ ": " +:+ data item.2) p
                            FONT_HERSHEY_SIMPLEX (1 # 2) (255, 0, 0) 1 LINE_AA in
          match rasterise c2 a1 with
          | Raise e => (Raise e, w1)
          | Ok a2 =>
              (Ok tt, World (<[output := a2]> (heap w)) (drawn w ++ [c1; c2])
                            (detections w))
          end
      end
  end.
Proof.
  intros Ha. destruct item as [idx r]. cbn zeta. cbn [fst snd].
  unfold mark, cv2_polylines, cv2_putText.
  set (pts := ndarray_astype_int (points r)).
  set (c1 := Polylines output [pts] true (0, 255, 0) 2).
  destruct (rasterise c1 a) as [a1|e] eqn:H1.
  - rewrite (bind_Ok _ _ _ _ _ (draw_run c1 w a a1 Ha H1)).
    destruct pts as [|p pts'].
    + reflexivity.
    + rewrite (bind_Ok _ _ _ p _ eq_refl).
      set (c2 := PutText _ _ _ _ _ _ _ _).
      destruct (rasterise c2 a1) as [a2|e] eqn:H2.
      * rewrite (draw_run c2 _ a1 a2); [|apply lookup_insert_eq|done].
        simpl. by rewrite insert_insert_eq, <- app_assoc.
      * by rewrite (draw_rejected c2 _ a1 e); [|apply lookup_insert_eq|].
  - by rewrite (bind_Raise _ _ _ _ _ (draw_rejected c1 w a e Ha H1)).
Qed.

Lemma calls_of_corner output (item : Z * QRCodeResult) p pts :
  ndarray_astype_int (points item.2) = p :: pts →
  calls_of output item =
  [Polylines output [p :: pts] true (0, 255, 0) 2;
   PutText output (str_int item.1 +:+ ": " +:+ data item.2) p
           FONT_HERSHEY_SIMPLEX (1 # 2) (255, 0, 0) 1 LINE_AA].
Proof. intros E. unfold calls_of. by rewrite E. Qed.

Lemma astype_int_corner (b : box) :
  b ≠ [] → ∃ p pts, ndarray_astype_int b = p :: pts.
Proof. destruct b as [|[x y] b]; [done|]. simpl. eauto. Qed.

(** The loop runs to its end when every item has a corner and OpenCV
    accepts the calls, one after the other. *)
Lemma for_each_mark_accepted output items :
  Forall (λ item : Z * QRCodeResult, points item.2 ≠ []) items →
  ∀ w a final,
    heap w !! output = Some a →
    rasterise_all (flat_map (calls_of output) items) a = Ok final →
    for_each items (mark output) w =
    (Ok tt, World (<[output := final]> (heap w))
                  (drawn w ++ flat_map (calls_of output) items)
                  (detections w)).
Proof.
  induction 1 as [|item items Hpts _ IH]; intros w a final Ha Hr.
  - injection Hr as <-. simpl.
    rewrite app_nil_r, (insert_id _ _ _ Ha). by destruct w.
  - destruct (astype_int_corner _ Hpts) as (p & pts & Ep).
    change (flat_map (calls_of output) (item :: items))
      with (calls_of output item ++ flat_map (calls_of output) items) in *.
    apply rasterise_all_app_inv in Hr as (a2 & R1 & R2).
    rewrite (calls_of_corner _ _ _ _ Ep) in *.
    rewrite rasterise_all_cons in R1.
    destruct (rasterise _ a) as [a1|] eqn:H1; [|done].
    rewrite rasterise_all_cons in R1.
    destruct (rasterise _ a1) as [a2'|] eqn:H2; [|done].
    injection R1 as ->.
    cbn [for_each]. erewrite bind_Ok.
    2:{ rewrite (mark_cases _ _ _ _ Ha). cbn zeta. rewrite Ep, H1, H2.
        reflexivity. }
    rewrite (IH _ a2 final (lookup_insert_eq _ _ _) R2). simpl.
    by rewrite insert_insert_eq, <- app_assoc.
Qed.

(** And only then. *)
Lemma for_each_mark_inv output items :
  ∀ w a w',
    heap w !! output = Some a →
    for_each items (mark output) w = (Ok tt, w') →
    Forall (λ item : Z * QRCodeResult, points item.2 ≠ []) items ∧
    ∃ final,
      rasterise_all (flat_map (calls_of output) items) a = Ok final ∧
      w' = World (<[output := final]> (heap w))
                 (drawn w ++ flat_map (calls_of output) items)
                 (detections w).
Proof.
  induction items as [|item items IH]; intros w a w' Ha E.
  - injection E as <-. split; [done|]. exists a. split; [done|]. simpl.
    rewrite app_nil_r, (insert_id _ _ _ Ha). by destruct w.
  - cbn [for_each] in E. unfold mbind, M_bind in E.
    rewrite (mark_cases _ _ _ _ Ha) in E. cbn zeta in E.
    destruct (rasterise _ a) as [a1|] eqn:H1; [|done].
    destruct (ndarray_astype_int (points item.2)) as [|p pts] eqn:Ep; [done|].
    destruct (rasterise _ a1) as [a2|] eqn:H2; [|done].
    apply (IH _ a2) in E as (Hall & final & R & ->);
      [|apply lookup_insert_eq].
    split.
    + constructor; [|done]. intros Hnil. by rewrite Hnil in Ep.
    + exists final.
      change (flat_map (calls_of output) (item :: items))
        with (calls_of output item ++ flat_map (calls_of output) items).
      rewrite (calls_of_corner _ _ _ _ Ep). split.
      * rewrite <- R. apply rasterise_all_app.
        by rewrite rasterise_all_cons, H1, rasterise_all_cons, H2.
      * simpl. by rewrite insert_insert_eq, <- app_assoc.
Qed.

Lemma enumerate_corners start (results : list QRCodeResult) :
  Forall (λ r, points r ≠ []) results ↔
  Forall (λ item : Z * QRCodeResult, points item.2 ≠ []) (enumerate start results).
Proof.
  revert start. induction results as [|r results IH]; intros start; simpl.
  - split; constructor.
  - rewrite !Forall_cons, <- IH. done.
Qed.

Lemma flat_map_calls_lookup output items (i : nat) :
  flat_map (calls_of output) items !! (2 * i)%nat =
    (λ item, Polylines output [ndarray_astype_int (points item.2)] true
                       (0, 255, 0) 2) <$> items !! i ∧
  flat_map (calls_of output) items !! (2 * i + 1)%nat =
    (λ item, PutText output (str_int item.1 +:+ ": " +:+ data item.2)
                     (default (0, 0) (head (ndarray_astype_int (points item.2))))
                     FONT_HERSHEY_SIMPLEX (1 # 2) (255, 0, 0) 1 LINE_AA)
      <$> items !! i.
Proof.
  revert i. induction items as [|item items IH]; intros i.
  - done.
  - destruct i as [|i]; [done|].
    replace (2 * S i)%nat with (S (S (2 * i))) by lia.
    replace (S (S (2 * i)) + 1)%nat with (S (S (2 * i + 1))) by lia.
    apply IH.
Qed.

Lemma flat_map_calls_count output items :
  closed_polygons (flat_map (calls_of output) items) = length items ∧
  labels (flat_map (calls_of output) items) = length items.
Proof.
  induction items as [|item items [IH1 IH2]]; [done|].
  unfold closed_polygons, labels in *. simpl. by rewrite IH1, IH2.
Qed.

Lemma flat_map_calls_length output (items : list (Z * QRCodeResult)) :
  length (flat_map (calls_of output) items) = (2 * length items)%nat.
Proof. induction items as [|item items IH]; simpl; [done|]. rewrite IH. lia. Qed.

(** C3: [draw_qr_boxes] leaves the pixels of its input image, and of every
    array that existed before the call, as they were; what it returns is an
    array that did not exist before, and every drawing call it made was
    made on that array. *)
Theorem draw_qr_boxes_input_unchanged image results w :
  let r := draw_qr_boxes image results w in
  heap r.2 !! image = heap w !! image ∧
  heap w ⊆ heap r.2 ∧
  ∃ calls, drawn r.2 = drawn w ++ calls ∧
    match r.1 with
    | Ok output =>
        heap w !! output = None ∧ Forall (λ c, target c = output) calls
    | Raise _ => Forall (λ c, heap w !! target c = None) calls
    end.
Proof.
  rewrite draw_qr_boxes_unfold.
  destruct (heap w !! image) as [a|] eqn:Ha.
  - destruct (ndarray_copy_run image w a Ha) as [Hfresh Hcopy].
    set (output := fresh (dom (heap w))) in *.
    set (w1 := World (<[output := a]> (heap w)) (drawn w) (detections w)) in *.
    rewrite (bind_Ok _ _ _ _ _ Hcopy).
    pose proof (for_each_writes_only output (mark output) (enumerate 1 results)
                  (mark_writes_only output) w1) as [Hframe (calls & Hlog & Htgt)].
    assert (Hold : ∀ l, l ≠ output →
              heap (for_each (enumerate 1 results) (mark output) w1).2 !! l
              = heap w !! l).
    { intros l N. rewrite (Hframe l N). simpl. by rewrite lookup_insert_ne. }
    unfold mbind, M_bind.
    destruct (for_each _ _ w1) as [[[]|e] w2]; simpl in *.
    + split; [|split].
      * rewrite Hold; [done|]. intros ->. congruence.
      * apply map_subseteq_spec. intros l b Hl. rewrite Hold; [done|].
        intros ->. congruence.
      * exists calls. done.
    + split; [|split].
      * rewrite Hold; [done|]. intros ->. congruence.
      * apply map_subseteq_spec. intros l b Hl. rewrite Hold; [done|].
        intros ->. congruence.
      * exists calls. split; [done|].
        eapply Forall_impl; [exact Htgt|]. by intros c ->.
  - rewrite (bind_Raise _ _ w InvalidReference w).
    + simpl. split; [done|]. split; [done|]. exists []. by rewrite app_nil_r.
    + unfold ndarray_copy. apply bind_Raise. by apply read_None.
Qed.

(** C10: with no results, [draw_qr_boxes] returns a new array holding the
    pixels of the input image; nothing else in the world changes and no
    drawing call is made. *)
Theorem draw_qr_boxes_nil image w a :
  heap w !! image = Some a →
  ∃ output,
    heap w !! output = None ∧
    draw_qr_boxes image [] w =
    (Ok output, World (<[output := a]> (heap w)) (drawn w) (detections w)).
Proof.
  intros Ha. destruct (ndarray_copy_run image w a Ha) as [Hfresh Hcopy].
  eexists. split; [exact Hfresh|].
  rewrite draw_qr_boxes_unfold, (bind_Ok _ _ _ _ _ Hcopy). reflexivity.
Qed.

(** C6: when every result has a first corner and OpenCV accepts the
    calls that annotating the results makes, [draw_qr_boxes] returns
    normally and has drawn, for the result at position [i] of the list,
    call [2 i] of its log: one closed polygon through the result's
    corners, and call [2 i + 1]: the label [str (i + 1) : data] at the
    result's first corner.  So polygons and labels both number
    [len results]. *)
Theorem draw_qr_boxes_polygon_and_label image results w a :
  heap w !! image = Some a →
  Forall (λ r, points r ≠ []) results →
  accepts (annotation_calls (next_ref w) results) a →
  ∃ output w' calls,
    draw_qr_boxes image results w = (Ok output, w') ∧
    drawn w' = drawn w ++ calls ∧
    closed_polygons calls = length results ∧
    labels calls = length results ∧
    length calls = (2 * length results)%nat ∧
    ∀ (i : nat) r, results !! i = Some r →
      ∃ p, head (ndarray_astype_int (points r)) = Some p ∧
        calls !! (2 * i)%nat =
          Some (Polylines output [ndarray_astype_int (points r)] true
                          (0, 255, 0) 2) ∧
        calls !! (2 * i + 1)%nat =
          Some (PutText output (str_int (Z.of_nat i + 1) +:+ ": " +:+ data r) p
                        FONT_HERSHEY_SIMPLEX (1 # 2) (255, 0, 0) 1 LINE_AA).
Proof.
  intros Ha Hpts [final Hacc]. unfold next_ref, annotation_calls in Hacc.
  destruct (ndarray_copy_run image w a Ha) as [Hfresh Hcopy].
  set (output := fresh (dom (heap w))) in *.
  set (w1 := World (<[output := a]> (heap w)) (drawn w) (detections w)) in *.
  pose proof (for_each_mark_accepted output _
                (proj1 (enumerate_corners 1 results) Hpts) w1 a final
                (lookup_insert_eq (heap w) output a) Hacc) as Hloop.
  set (calls := flat_map (calls_of output) (enumerate 1 results)) in *.
  exists output,
    (World (<[output := final]> (heap w1)) (drawn w1 ++ calls) (detections w1)),
    calls.
  destruct (flat_map_calls_count output (enumerate 1 results)) as [Hpoly Hlab].
  rewrite enumerate_length in Hpoly, Hlab.
  split; [|split; [done|split; [done|split; [done|split]]]].
  - rewrite draw_qr_boxes_unfold, (bind_Ok _ _ _ _ _ Hcopy).
    by rewrite (bind_Ok _ _ _ _ _ Hloop).
  - unfold calls. by rewrite flat_map_calls_length, enumerate_length.
  - intros i r Hi.
    destruct (flat_map_calls_lookup output (enumerate 1 results) i) as [L1 L2].
    rewrite enumerate_lookup, Hi in L1, L2.
    pose proof (Forall_lookup_1 _ _ _ _ Hpts Hi) as Hne. simpl in Hne.
    destruct (ndarray_astype_int (points r)) as [|p pts] eqn:Ep.
    { destruct (points r) as [|[x y] b]; [done|discriminate Ep]. }
    exists p. unfold calls. rewrite L1, L2. simpl. rewrite Ep. simpl.
    split; [done|]. split; [done|]. by rewrite Z.add_comm.
Qed.

(** X3: the first result without corners ends the annotation.  When
    OpenCV accepts the calls made up to there, the results before it have
    been drawn, one polygon call with no points has been made for it,
    [IndexError] is raised and nothing is drawn for the results after
    it. *)
Theorem draw_qr_boxes_no_corners image w a pre r post :
  heap w !! image = Some a →
  Forall (λ r, points r ≠ []) pre →
  points r = [] →
  accepts (annotation_calls (next_ref w) pre
             ++ [Polylines (next_ref w) [[]] true (0, 255, 0) 2]) a →
  ∃ output w' calls,
    draw_qr_boxes image (pre ++ r :: post) w = (Raise IndexError, w') ∧
    heap w !! output = None ∧
    drawn w' = drawn w ++ calls ++ [Polylines output [[]] true (0, 255, 0) 2] ∧
    length calls = (2 * length pre)%nat ∧
    closed_polygons calls = length pre ∧
    labels calls = length pre.
Proof.
  intros Ha Hpre Hr [final Hacc]. unfold next_ref, annotation_calls in Hacc.
  destruct (ndarray_copy_run image w a Ha) as [Hfresh Hcopy].
  set (output := fresh (dom (heap w))) in *.
  set (w1 := World (<[output := a]> (heap w)) (drawn w) (detections w)) in *.
  apply rasterise_all_app_inv in Hacc as (a1 & R1 & R2).
  pose proof (for_each_mark_accepted output _
                (proj1 (enumerate_corners 1 pre) Hpre) w1 a a1
                (lookup_insert_eq (heap w) output a) R1) as Hloop.
  set (calls := flat_map (calls_of output) (enumerate 1 pre)) in *.
  set (c := Polylines output [[]] true (0, 255, 0) 2) in *.
  rewrite rasterise_all_cons in R2.
  destruct (rasterise c a1) as [a2|] eqn:Hc; [|done].
  exists output,
    (World (<[output := a2]> (heap w)) (drawn w ++ calls ++ [c]) (detections w)),
    calls.
  destruct (flat_map_calls_count output (enumerate 1 pre)) as [Hpoly Hlab].
  rewrite enumerate_length in Hpoly, Hlab.
  split; [|split; [done|split; [done|split; [|done]]]].
  - rewrite draw_qr_boxes_unfold, (bind_Ok _ _ _ _ _ Hcopy).
    rewrite enumerate_app.
    erewrite bind_Raise; [done|].
    rewrite for_each_app, (bind_Ok _ _ _ _ _ Hloop).
    cbn [enumerate for_each]. erewrite bind_Raise; [done|].
    rewrite (mark_cases _ _ _ a1); [|apply lookup_insert_eq].
    cbn zeta. cbn [fst snd]. rewrite Hr. cbn [ndarray_astype_int map].
    destruct (rasterise _ a1) as [a0|e0]; [|done].
    injection Hc as ->. unfold w1, c. simpl.
    by rewrite !insert_insert_eq, <- app_assoc.
  - unfold calls. by rewrite flat_map_calls_length, enumerate_length.
Qed.

(** X4: whenever [draw_qr_boxes] returns normally, the input image
    existed, the returned reference did not, and the world is the old one
    with exactly one array more, the returned one: its pixels are those of
    the input image with the annotation calls applied in order, and those
    calls are what the log has gained. *)
Theorem draw_qr_boxes_pixels image results w output w' :
  draw_qr_boxes image results w = (Ok output, w') →
  ∃ a final,
    heap w !! image = Some a ∧
    heap w !! output = None ∧
    rasterise_all (annotation_calls output results) a = Ok final ∧
    w' = World (<[output := final]> (heap w))
               (drawn w ++ annotation_calls output results) (detections w).
Proof.
  rewrite draw_qr_boxes_unfold. intros E.
  destruct (heap w !! image) as [a|] eqn:Ha.
  2:{ rewrite (bind_Raise _ _ w InvalidReference w) in E; [done|].
      unfold ndarray_copy. apply bind_Raise. by apply read_None. }
  destruct (ndarray_copy_run image w a Ha) as [Hfresh Hcopy].
  set (out := fresh (dom (heap w))) in *.
  rewrite (bind_Ok _ _ _ _ _ Hcopy) in E.
  unfold mbind, M_bind in E.
  destruct (for_each _ _ _) as [[[]|e] w2] eqn:Hloop; [|done].
  injection E as <- <-.
  apply (for_each_mark_inv out _ _ a) in Hloop as (_ & final & R & ->);
    [|apply lookup_insert_eq].
  exists a, final. split; [done|]. split; [done|]. split; [done|].
  simpl. by rewrite insert_insert_eq.
Qed.

End Annotation.

Section AnnotationRuns.
Import Bench.
#[local] Existing Instance Bench.cv.

(** The input keeps its pixels; the copy, at a new reference, is painted. *)
Example draw_black :
  let r := draw_qr_boxes 1%positive two_results (world_of black) in
  r.1 = Ok 2%positive ∧
  heap r.2 !! 1%positive = Some black ∧
  heap r.2 !! 2%positive = Some [[[255; 0; 0]; [255; 0; 0]]] ∧
  drawn r.2 =
  [Polylines 2%positive [[(10, 10); (50, 10); (50, 50); (10, 50)]] true
             (0, 255, 0) 2;
   PutText 2%positive "1: A" (10, 10) FONT_HERSHEY_SIMPLEX (1 # 2)
           (255, 0, 0) 1 LINE_AA;
   Polylines 2%positive [[(10, 100); (50, 100); (50, 140); (10, 140)]] true
             (0, 255, 0) 2;
   PutText 2%positive "2: C" (10, 100) FONT_HERSHEY_SIMPLEX (1 # 2)
           (255, 0, 0) 1 LINE_AA].
Proof. vm_compute. repeat split; reflexivity. Qed.

(** A result without corners: the polygon call is made, then indexing the
    first corner raises. *)
Example draw_no_corners :
  let r := draw_qr_boxes 1%positive [mkQRCodeResult "A" []] (world_of black) in
  r.1 = Raise IndexError ∧
  drawn r.2 = [Polylines 2%positive [[]] true (0, 255, 0) 2].
Proof. vm_compute. split; reflexivity. Qed.

(** A label that OpenCV rejects: the polygon has been drawn, the label has
    not, and the error of OpenCV is raised. *)
Example draw_far_corner :
  let r := draw_qr_boxes 1%positive [far] (world_of black) in
  r.1 = Raise cv2_error ∧
  closed_polygons (drawn r.2) = 1%nat ∧ labels (drawn r.2) = 0%nat.
Proof. vm_compute. repeat split; reflexivity. Qed.

Lemma draw_qr_boxes_nil_witness :
  ∃ output,
    heap (world_of black) !! output = None ∧
    draw_qr_boxes 1%positive [] (world_of black) =
    (Ok output, World (<[output := black]> (heap (world_of black))) [] 0).
Proof.
  apply (draw_qr_boxes_nil (cv := Bench.cv) 1%positive (world_of black) black).
  reflexivity.
Defined.

Lemma draw_qr_boxes_polygon_and_label_witness :
  ∃ output w',
    draw_qr_boxes 1%positive two_results (world_of black) = (Ok output, w') ∧
    closed_polygons (drawn w') = 2%nat ∧ labels (drawn w') = 2%nat.
Proof.
  destruct (draw_qr_boxes_polygon_and_label (cv := Bench.cv) 1%positive
              two_results (world_of black) black)
    as (output & w' & calls & E & D & P & L & _).
  - reflexivity.
  - repeat constructor; discriminate.
  - exists [[[255; 0; 0]; [255; 0; 0]]]. vm_compute. reflexivity.
  - exists output, w'. rewrite D. simpl. auto.
Defined.

Lemma draw_qr_boxes_no_corners_witness :
  ∃ output w' calls,
    draw_qr_boxes 1%positive
      ([@mkQRCodeResult Bench.cv "A" (quad 21 21)]
         ++ @mkQRCodeResult Bench.cv "B" [] :: [@mkQRCodeResult Bench.cv "C" (quad 21 201)])
      (world_of black) = (Raise IndexError, w') ∧
    heap (world_of black) !! output = None ∧
    drawn w' = drawn (world_of black) ++ calls
               ++ [Polylines output [[]] true (0, 255, 0) 2] ∧
    length calls = (2 * 1)%nat ∧
    closed_polygons calls = 1%nat ∧
    labels calls = 1%nat.
Proof.
  apply (draw_qr_boxes_no_corners (cv := Bench.cv) 1%positive (world_of black)
           black [@mkQRCodeResult Bench.cv "A" (quad 21 21)]
           (@mkQRCodeResult Bench.cv "B" [])
           [@mkQRCodeResult Bench.cv "C" (quad 21 201)]).
  - reflexivity.
  - repeat constructor; discriminate.
  - reflexivity.
  - exists [[[0; 255; 0]; [0; 255; 0]]]. vm_compute. reflexivity.
Defined.

Lemma draw_qr_boxes_pixels_witness :
  ∃ a final,
    heap (world_of black) !! 1%positive = Some a ∧
    heap (world_of black) !! 2%positive = None ∧
    rasterise_all (annotation_calls 2%positive two_results) a = Ok final ∧
    (draw_qr_boxes 1%positive two_results (world_of black)).2 =
    World (<[2%positive := final]> (heap (world_of black)))
          (drawn (world_of black) ++ annotation_calls 2%positive two_results) 0.
Proof.
  apply (draw_qr_boxes_pixels (cv := Bench.cv) 1%positive two_results
           (world_of black) 2%positive).
  vm_compute. reflexivity.
Defined.

End AnnotationRuns.

(** ** Formatting *)

Lemma all_digits_uint d : all_digits (NilEmpty.string_of_uint d).
Proof.
  induction d; simpl; try done; (split; [|done]);
    unfold digit_chars; rewrite !elem_of_cons; tauto.
Qed.

Lemma all_digits_str_int n : 0 ≤ n → all_digits (str_int n).
Proof.
  intros Hn. unfold str_int. destruct n as [|p|p]; [| |lia].
  - simpl. split; [|done]. unfold digit_chars. rewrite !elem_of_cons. tauto.
  - simpl. unfold NilZero.string_of_uint.
    pose proof (all_digits_uint (Pos.to_uint p)) as H.
    destruct (Pos.to_uint p) eqn:E; try exact H.
    by destruct (Unsigned.to_uint_nonnil p).
Qed.

Lemma str_int_inj n m : str_int n = str_int m → n = m.
Proof.
  unfold str_int. intros E.
  assert (Hnil : ∀ z, Z.to_int z ≠ Decimal.Pos Decimal.Nil ∧
                      Z.to_int z ≠ Decimal.Neg Decimal.Nil).
  { intros [|p|p]; simpl; split; try discriminate;
      intros [= H]; by destruct (Unsigned.to_uint_nonnil p). }
  assert (Z.to_int n = Z.to_int m) as E'.
  { destruct (Hnil n) as [N1 N2], (Hnil m) as [M1 M2].
    pose proof (NilZero.isi _ N1 N2) as In.
    pose proof (NilZero.isi _ M1 M2) as Im.
    rewrite E in In. congruence. }
  by rewrite <- (DecimalZ.of_to n), <- (DecimalZ.of_to m), E'.
Qed.

Lemma dot_not_digit : "."%char ∉ digit_chars.
Proof.
  unfold digit_chars. rewrite !not_elem_of_cons.
  repeat split; try discriminate. apply not_elem_of_nil.
Qed.

(** A numeral followed by a period cannot be read in two ways. *)
Lemma numeral_period_inj s t u v :
  all_digits s → all_digits t →
  s +:+ String "." u = t +:+ String "." v → s = t ∧ u = v.
Proof.
  revert t. induction s as [|c s IH]; intros [|d t] Hs Ht E; simpl in *.
  - by simplify_eq.
  - injection E as <- _. by destruct dot_not_digit, Ht.
  - injection E as -> _. by destruct dot_not_digit, Hs.
  - injection E as -> E. destruct Hs as [_ Hs], Ht as [_ Ht].
    destruct (IH t Hs Ht E) as [-> ->]. done.
Qed.

Lemma line_inj (i j : nat) (d1 d2 : string) :
  str_int (Z.of_nat i + 1) +:+ ". " +:+ d1 =
  str_int (Z.of_nat j + 1) +:+ ". " +:+ d2 →
  i = j ∧ d1 = d2.
Proof.
  intros E. simpl in E.
  apply numeral_period_inj in E as [E1 E2];
    [|apply all_digits_str_int; lia..].
  apply str_int_inj in E1. split; [lia|congruence].
Qed.

Section Formatting.
Context `{cv : OpenCV}.

(** C4: [format_results] returns one string per result, in the order of the
    list: at index [i], the decimal numeral of [i + 1], a period, a space
    and the decoded text of result [i]. *)
Theorem format_results_nth results :
  length (format_results results) = length results ∧
  ∀ (i : nat) r, results !! i = Some r →
    format_results results !! i =
    Some (str_int (Z.of_nat i + 1) +:+ ". " +:+ data r).
Proof.
  unfold format_results. split.
  - by rewrite length_map, enumerate_length.
  - intros i r Hi. rewrite list_lookup_fmap, enumerate_lookup, Hi. simpl.
    by rewrite Z.add_comm.
Qed.

Lemma format_results_lookup results (i : nat) :
  format_results results !! i =
  (λ r, str_int (Z.of_nat i + 1) +:+ ". " +:+ data r) <$> results !! i.
Proof.
  unfold format_results.
  rewrite list_lookup_fmap, enumerate_lookup.
  destruct (results !! i); simpl; [|done]. by rewrite Z.add_comm.
Qed.

(** X6: A line of the list names its result: no two lines of one list are
    equal, even when two codes carry the same text, and a line that occurs
    in two lists stands at the same position in both, for the same text. *)
Theorem format_results_lines results :
  NoDup (format_results results) ∧
  ∀ other (i j : nat) line,
    format_results results !! i = Some line →
    format_results other !! j = Some line →
    i = j ∧ data <$> results !! i = data <$> other !! j.
Proof.
  split.
  - apply NoDup_alt. intros i j line Hi Hj.
    rewrite format_results_lookup in Hi, Hj.
    destruct (results !! i) as [ri|], (results !! j) as [rj|];
      simpl in Hi, Hj; try done.
    injection Hi as <-. injection Hj as Hj.
    by apply (line_inj j i (data rj) (data ri)) in Hj as [-> _].
  - intros other i j line Hi Hj.
    rewrite format_results_lookup in Hi, Hj.
    destruct (results !! i) as [ri|], (other !! j) as [rj|];
      simpl in Hi, Hj; try done.
    injection Hi as <-. injection Hj as Hj.
    apply (line_inj j i (data rj) (data ri)) in Hj as [-> E].
    simpl. by rewrite E.
Qed.

(** X7: Results added at the end are numbered on from the last number, and the
    lines of the results before them stay as they were. *)
Theorem format_results_app results more :
  format_results (results ++ more) =
  format_results results ++
  map (λ '(idx, r), str_int idx +:+ ". " +:+ data r)
      (enumerate (1 + Z.of_nat (length results)) more).
Proof.
  unfold format_results. by rewrite enumerate_app, map_app.
Qed.

End Formatting.

Example str_int_digits :
  str_int 1 = "1" ∧ str_int 10 = "10" ∧ str_int 305 = "305".
Proof. repeat split; reflexivity. Qed.

Example format_three :
  format_results (cv := Bench.cv)
    [mkQRCodeResult "A" []; mkQRCodeResult "B" []; mkQRCodeResult "C" []]
  = ["1. A"; "2. B"; "3. C"].
Proof. reflexivity. Qed.

Lemma format_results_nth_witness :
  format_results (cv := Bench.cv)
    [mkQRCodeResult "A" []; mkQRCodeResult "B" []] !! 1%nat = Some "2. B".
Proof.
  apply (proj2 (format_results_nth (cv := Bench.cv)
                  [mkQRCodeResult "A" []; mkQRCodeResult "B" []])
               1%nat (mkQRCodeResult "B" [])).
  reflexivity.
Defined.

Section FormattingRuns.
#[local] Existing Instance Bench.cv.

Lemma format_results_lines_witness :
  1%nat = 1%nat ∧
  data <$> Bench.two_results !! 1%nat =
  data <$> [@mkQRCodeResult Bench.cv "X" []; @mkQRCodeResult Bench.cv "C" []] !! 1%nat.
Proof.
  apply (proj2 (format_results_lines (cv := Bench.cv) Bench.two_results)
           [@mkQRCodeResult Bench.cv "X" []; @mkQRCodeResult Bench.cv "C" []]
           1%nat 1%nat "2. C").
  - reflexivity.
  - reflexivity.
Defined.

End FormattingRuns.

(** ** The page *)

Section Page.
Context `{cv : OpenCV} `{im : Imaging}.

Lemma app_bind_Done {A B} (m : App A) (k : A → App B) s b s' :
  (m ≫= k) s = (Done b, s') →
  ∃ a s1, m s = (Done a, s1) ∧ k a s1 = (Done b, s').
Proof.
  unfold mbind, App_bind. destruct (m s) as [[a|e] s1]; [eauto|done].
Qed.

Lemma app_bind_run {A B} (m : App A) (k : A → App B) s a s1 :
  m s = (Done a, s1) → (m ≫= k) s = k a s1.
Proof. intros E. unfold mbind, App_bind. by rewrite E. Qed.

Lemma app_bind_fail {A B} (m : App A) (k : A → App B) s e s1 :
  m s = (Failed e, s1) → (m ≫= k) s = (Failed e, s1).
Proof. intros E. unfold mbind, App_bind. by rewrite E. Qed.

Lemma core_run {A} (m : M A) s a w' :
  m (mem s) = (Ok a, w') →
  core m s = (Done a, Session w' (page s) (uploaded s)).
Proof. intros E. unfold core. by rewrite E. Qed.

Lemma core_fail {A} (m : M A) s e w' :
  m (mem s) = (Raise e, w') →
  core m s = (Failed (Lib e), Session w' (page s) (uploaded s)).
Proof. intros E. unfold core. by rewrite E. Qed.

Lemma alloc_run a w :
  let l := fresh (dom (heap w)) in
  heap w !! l = None ∧
  alloc a w = (Ok l, World (<[l := a]> (heap w)) (drawn w) (detections w)).
Proof. split; [apply not_elem_of_dom, is_fresh|done]. Qed.

Lemma cv2_cvtColor_run src code w a a' :
  heap w !! src = Some a →
  cvtColor a code = Ok a' →
  let l := fresh (dom (heap w)) in
  heap w !! l = None ∧
  cv2_cvtColor src code w =
  (Ok l, World (<[l := a']> (heap w)) (drawn w) (detections w)).
Proof.
  intros Ha Hc l. split; [apply not_elem_of_dom, is_fresh|].
  unfold cv2_cvtColor. rewrite (bind_Ok _ _ _ _ _ (read_Some _ _ _ Ha)).
  unfold mbind, M_bind, lift. by rewrite Hc.
Qed.

Lemma cv2_cvtColor_rejected src code w a e :
  heap w !! src = Some a →
  cvtColor a code = Raise e →
  cv2_cvtColor src code w = (Raise e, w).
Proof.
  intros Ha Hc.
  unfold cv2_cvtColor. rewrite (bind_Ok _ _ _ _ _ (read_Some _ _ _ Ha)).
  unfold mbind, M_bind, lift. by rewrite Hc.
Qed.

Lemma main_unfold s :
  main s =
  let s0 := Session (mem s) (page s ++ header) (uploaded s) in
  match uploaded s with
  | None => st Page (st_info "Please upload an image to begin.") s0
  | Some uploaded_file => after_upload uploaded_file s0
  end.
Proof.
  unfold main.
  do 3 rewrite (app_bind_run (st _ _) _ _ tt _ eq_refl).
  rewrite (app_bind_run (file_uploader _ _) _ _ _ _ eq_refl).
  cbn [mem page uploaded]. rewrite <- !app_assoc.
  by destruct (uploaded s).
Qed.

(** X8: Without an upload [main] shows the heading, the introduction, the
    uploader and the prompt, and returns: no image is opened, no array is
    created and nothing is drawn. *)
Theorem main_no_upload s :
  uploaded s = None →
  main s =
  (Done tt,
   Session (mem s)
     (page s ++ header ++ [(Page, st_info "Please upload an image to begin.")])
     None).
Proof.
  intros U. rewrite main_unfold, U. unfold st. simpl.
  by rewrite <- app_assoc.
Qed.

(** What [load_image] comes to, case by case. *)
Lemma load_image_cases image s :
  load_image image s =
  match Image_convert image "RGB" with
  | None => (Failed PIL_error, s)
  | Some rgb =>
      let l1 := fresh (dom (heap (mem s))) in
      let w1 := World (<[l1 := np_array rgb]> (heap (mem s)))
                      (drawn (mem s)) (detections (mem s)) in
      match cvtColor (np_array rgb) COLOR_RGB2BGR with
      | Raise e => (Failed (Lib e), Session w1 (page s) (uploaded s))
      | Ok bgr =>
          (Done (fresh (dom (heap w1))),
           Session (World (<[fresh (dom (heap w1)) := bgr]> (heap w1))
                          (drawn (mem s)) (detections (mem s)))
                   (page s) (uploaded s))
      end
  end.
Proof.
  unfold load_image.
  destruct (Image_convert image "RGB") as [rgb|]; [|done].
  rewrite (app_bind_run (pil (Some rgb)) _ s rgb s eq_refl).
  destruct (alloc_run (np_array rgb) (mem s)) as [_ E1].
  rewrite (app_bind_run _ _ _ _ _ (core_run _ s _ _ E1)). cbn zeta.
  set (l1 := fresh (dom (heap (mem s)))).
  set (w1 := World _ _ _).
  destruct (cvtColor (np_array rgb) COLOR_RGB2BGR) as [bgr|e] eqn:Hc.
  - destruct (cv2_cvtColor_run l1 COLOR_RGB2BGR w1 _ bgr
                (lookup_insert_eq _ l1 _) Hc) as [_ E2].
    exact (core_run _ (Session w1 (page s) (uploaded s)) _ _ E2).
  - exact (core_fail _ (Session w1 (page s) (uploaded s)) _ _
             (cv2_cvtColor_rejected l1 COLOR_RGB2BGR w1 _ e
                (lookup_insert_eq _ l1 _) Hc)).
Qed.

Lemma load_image_run image s rgb bgr :
  Image_convert image "RGB" = Some rgb →
  cvtColor (np_array rgb) COLOR_RGB2BGR = Ok bgr →
  ∃ l heap',
    load_image image s =
    (Done l, Session (World heap' (drawn (mem s)) (detections (mem s)))
                     (page s) (uploaded s)) ∧
    heap (mem s) !! l = None ∧
    heap' !! l = Some bgr ∧
    heap (mem s) ⊆ heap'.
Proof.
  intros Hconv Hcvt. rewrite load_image_cases, Hconv, Hcvt. cbn zeta.
  set (l1 := fresh (dom (heap (mem s)))).
  set (w1 := World _ _ _).
  set (l := fresh (dom (heap w1))).
  assert (F1 : heap (mem s) !! l1 = None) by apply not_elem_of_dom, is_fresh.
  assert (F2 : heap w1 !! l = None) by apply not_elem_of_dom, is_fresh.
  assert (N : l ≠ l1).
  { intros E. rewrite E in F2. simpl in F2. by rewrite lookup_insert_eq in F2. }
  assert (F : heap (mem s) !! l = None).
  { simpl in F2. by rewrite lookup_insert_ne in F2. }
  exists l, (<[l := bgr]> (heap w1)).
  split; [done|]. split; [done|]. split; [apply lookup_insert_eq|].
  simpl. etransitivity; [|by apply insert_subseteq].
  by apply insert_subseteq.
Qed.

(** [load_image] shows nothing, draws nothing and asks the detector
    nothing, whether it returns or fails. *)
Lemma load_image_quiet image s :
  let s' := (load_image image s).2 in
  page s' = page s ∧ uploaded s' = uploaded s ∧
  drawn (mem s') = drawn (mem s) ∧ detections (mem s') = detections (mem s).
Proof.
  rewrite load_image_cases.
  destruct (Image_convert image "RGB") as [rgb|]; [|done]. cbn zeta.
  by destruct (cvtColor (np_array rgb) COLOR_RGB2BGR).
Qed.

(** X11: [load_image] leaves the page and every existing array alone: it
    returns a reference that did not exist before, to the array
    [cvtColor(np.array(image.convert("RGB")), COLOR_RGB2BGR)]. *)
Theorem load_image_new_array image s rgb bgr :
  Image_convert image "RGB" = Some rgb →
  cvtColor (np_array rgb) COLOR_RGB2BGR = Ok bgr →
  ∃ l s',
    load_image image s = (Done l, s') ∧
    heap (mem s) !! l = None ∧
    heap (mem s') !! l = Some bgr ∧
    heap (mem s) ⊆ heap (mem s') ∧
    drawn (mem s') = drawn (mem s) ∧
    page s' = page s.
Proof.
  intros Hconv Hcvt.
  destruct (load_image_run image s rgb bgr Hconv Hcvt)
    as (l & heap' & E & F & L & Sub).
  exists l. eexists. split; [exact E|]. done.
Qed.

(** Detection inside the session never succeeds. *)
Lemma core_detect_fails bgr_image s :
  ∃ e w', core (detect_qr_codes bgr_image) s
          = (Failed (Lib e), Session w' (page s) (uploaded s)) ∧
          drawn w' = drawn (mem s).
Proof.
  unfold core. rewrite detect_qr_codes_outcome.
  destruct (heap (mem s) !! bgr_image) as [a|]; [|by eauto].
  destruct (detectAndDecodeMulti _ a); by eauto.
Qed.

(** X10: with an upload, [main] never runs to its end.  It fails, in
    opening or converting the image or, at the latest, in detection, and
    in every case before it has shown anything but the header: no image,
    no count, no list and no warning; and nothing has been drawn. *)
Theorem main_upload_fails s f :
  uploaded s = Some f →
  ∃ e s',
    main s = (Failed e, s') ∧
    page s' = page s ++ header ∧
    drawn (mem s') = drawn (mem s).
Proof.
  intros U. rewrite main_unfold, U. cbn zeta.
  set (s0 := Session _ _ _). unfold after_upload.
  destruct (Image_open f) as [image|].
  2:{ exists PIL_error, s0. split; [|done]. by apply app_bind_fail. }
  rewrite (app_bind_run (pil (Some image)) _ s0 image s0 eq_refl).
  cbn beta.
  pose proof (load_image_quiet image s0) as (P1 & U1 & D1 & _).
  destruct (load_image image s0) as [[bgr_image|e] s1] eqn:E1; simpl in *.
  2:{ exists e, s1. split; [by apply app_bind_fail|]. done. }
  rewrite (app_bind_run _ _ _ _ _ E1). cbn beta.
  destruct (core_detect_fails bgr_image s1) as (e & w' & E2 & D2).
  exists (Lib e). eexists. split; [by apply app_bind_fail|].
  simpl. split; congruence.
Qed.

(** X12: when Pillow opens and converts the upload, [cvtColor] converts
    the array and the detector answers, whatever its answer, [main] fails
    with the [ValueError] of [detect_qr_codes]; the page shows the header
    and nothing else. *)
Theorem main_upload_value_error s f image rgb bgr ans :
  uploaded s = Some f →
  Image_open f = Some image →
  Image_convert image "RGB" = Some rgb →
  cvtColor (np_array rgb) COLOR_RGB2BGR = Ok bgr →
  detectAndDecodeMulti (detections (mem s)) bgr = Ok ans →
  ∃ s',
    main s = (Failed (Lib ValueError), s') ∧
    page s' = page s ++ header ∧
    drawn (mem s') = drawn (mem s) ∧
    detections (mem s') = S (detections (mem s)).
Proof.
  intros U Hopen Hconv Hcvt Hdet. rewrite main_unfold, U. cbn zeta.
  set (s0 := Session _ _ _). unfold after_upload.
  rewrite (app_bind_run (pil _) _ s0 image s0)
    by (unfold pil; by rewrite Hopen).
  cbn beta.
  destruct (load_image_run image s0 rgb bgr Hconv Hcvt)
    as (bgr_image & heap1 & E1 & _ & L1 & _).
  rewrite (app_bind_run _ _ _ _ _ E1). cbn beta.
  eexists. split.
  - apply app_bind_fail, core_fail.
    apply (detect_qr_codes_answered bgr_image (World heap1 _ _) bgr ans L1 Hdet).
  - done.
Qed.

End Page.

Section PageRuns.
Import Bench.
#[local] Existing Instance Bench.cv.
#[local] Existing Instance Studio.im.

(** An upload that Pillow opens, with three codes in it: the run ends in
    detection, and the page shows the header alone. *)
Example main_black :
  let r := main (Studio.start (Some [0; 0; 0])) in
  r.1 = Failed (Lib ValueError) ∧ page r.2 = header ∧ drawn (mem r.2) = [].
Proof. vm_compute. repeat split; reflexivity. Qed.

Lemma main_no_upload_witness :
  main (Studio.start None) =
  (Done tt,
   Session (mem (Studio.start None))
     (page (Studio.start None) ++ header
        ++ [(Page, st_info "Please upload an image to begin.")])
     None).
Proof.
  apply (main_no_upload (cv := Bench.cv) (im := Studio.im) (Studio.start None)).
  reflexivity.
Defined.

Lemma load_image_new_array_witness :
  ∃ l s',
    load_image (im := Studio.im) black (Studio.start None) = (Done l, s') ∧
    heap (mem (Studio.start None)) !! l = None ∧
    heap (mem s') !! l = Some black ∧
    heap (mem (Studio.start None)) ⊆ heap (mem s') ∧
    drawn (mem s') = drawn (mem (Studio.start None)) ∧
    page s' = page (Studio.start None).
Proof.
  apply (load_image_new_array (im := Studio.im) black (Studio.start None)
           black black); reflexivity.
Defined.

Lemma main_upload_fails_witness :
  ∃ e s',
    main (Studio.start (Some [])) = (Failed e, s') ∧
    page s' = page (Studio.start (Some [])) ++ header ∧
    drawn (mem s') = drawn (mem (Studio.start (Some []))).
Proof.
  apply (main_upload_fails (cv := Bench.cv) (im := Studio.im)
           (Studio.start (Some [])) []).
  reflexivity.
Defined.

Lemma main_upload_value_error_witness :
  ∃ s',
    main (Studio.start (Some [255; 255; 255])) = (Failed (Lib ValueError), s') ∧
    page s' = page (Studio.start (Some [255; 255; 255])) ++ header ∧
    drawn (mem s') = drawn (mem (Studio.start (Some [255; 255; 255]))) ∧
    detections (mem s') = 1%nat.
Proof.
  apply (main_upload_value_error (cv := Bench.cv) (im := Studio.im)
           (Studio.start (Some [255; 255; 255])) [255; 255; 255]
           white white white (false, [], None, [])).
  - reflexivity.
  - reflexivity.
  - reflexivity.
  - reflexivity.
  - reflexivity.
Defined.

End PageRuns.
